(** * The XLSX event importer (src/utils/xlsx-importer.py)

    The script reads a spreadsheet into a pandas data frame, walks its rows
    in order, builds one [event_data] dict per row and sends it with one
    blocking [insert(...).execute()] call to the remote [events] table.

    The embedding keeps the shape of the script:
    - a row is the pandas Series yielded by [df.iterrows()]: a finite map
      from column labels to cells;
    - [event_data] is a Python dict: a finite map from keys to values;
    - exceptions are an error monad; the first one raised ends the run;
    - the remote side is explicit state: the insert requests issued so far
      and the rows committed so far.

    Two things live outside the script and are parameters of the model:
    the JSON grammar accepted by [json.loads] on a string, and the answer
    of the backend to an insert request. *)

From Stdlib Require Import ZArith Ascii String Floats.PrimFloat.
From stdpp Require Import gmap strings list.

Local Open Scope string_scope.
Local Open Scope list_scope.
#[local] Set Warnings "-register-all".

(** ** Python values *)

(** What [json.loads] returns: None, bool, int, float, str, list, dict.
    A dict keeps its items in insertion order. *)
Inductive json : Type :=
  | JNull
  | JBool (b : bool)
  | JInt (n : Z)
  | JFloat (f : float)
  | JStr (s : string)
  | JList (items : list json)
  | JDict (items : list (string * json)).

(** A spreadsheet cell as it shows up in a row Series.  An empty cell is
    the float NaN, so it is [CFloat nan]. *)
Inductive cell : Type :=
  | CNone
  | CNaT
  | CFloat (f : float)
  | CInt (n : Z)
  | CBool (b : bool)
  | CStr (s : string)
  | CTimestamp (ns : Z).

(** The values stored in [event_data]: a cell copied from the row, or the
    value computed for the "metadata" key. *)
Inductive pyvalue : Type :=
  | Scalar (c : cell)
  | Json (j : json).

(** Errors raised by the backend call. *)
Inductive request_error : Type :=
  | NetworkError
  | SchemaViolation
  | AuthFailure.

Inductive exn : Type :=
  | KeyError (key : string)
  | TypeError
  | JSONDecodeError
  | ValueError
  | RecursionError
  | RequestError (e : request_error).

(** The ways [json.loads] fails on a string: the text is not JSON, an
    integer literal has more digits than the interpreter converts, or the
    nesting is deeper than the interpreter's stack allows. *)
Inductive decode_error : Type :=
  | NotJSON
  | IntTooLong
  | TooDeep.

(** The exception raised for each of them. *)
Definition decode_exn (d : decode_error) : exn :=
  match d with
  | NotJSON => JSONDecodeError
  | IntTooLong => ValueError
  | TooDeep => RecursionError
  end.

(** ** The error monad *)

Inductive result (A : Type) : Type :=
  | Ok (a : A)
  | Raise (e : exn).
Arguments Ok {A} a.
Arguments Raise {A} e.

Definition bind {A B : Type} (r : result A) (k : A -> result B) : result B :=
  match r with
  | Ok a => k a
  | Raise e => Raise e
  end.

Declare Scope py_scope.
Delimit Scope py_scope with py.
Notation "x <- r ;; k" := (bind r (fun x => k))
  (at level 100, r at next level, right associativity) : py_scope.

Abbreviation Row := (gmap string cell).
Abbreviation EventRecord := (gmap string pyvalue).

(** ** pandas and json primitives used by the script *)

(** [row[key]] on a Series indexed by column labels. *)
Definition getitem (row : Row) (key : string) : result cell :=
  match row !! key with
  | Some c => Ok c
  | None => Raise (KeyError key)
  end.

(** [key in row]: membership in the Series index. *)
Definition contains (row : Row) (key : string) : bool :=
  bool_decide (is_Some (row !! key)).

(** [pd.notna] on a scalar: false for None, NaT and NaN. *)
Definition notna (c : cell) : bool :=
  match c with
  | CNone | CNaT => false
  | CFloat f => negb (PrimFloat.is_nan f)
  | _ => true
  end.

(** The empty dict [{}]. *)
Definition empty_dict : json := JDict [].

Definition is_dict (j : json) : bool :=
  match j with
  | JDict _ => true
  | _ => false
  end.

(** The remote side: every insert request issued, in order, and the rows
    the [events] table has committed, in order. *)
Record backend : Type := Backend {
  requests : list EventRecord;
  table : list EventRecord
}.

(** A data frame: the header and the data rows below it, each cell as the
    row Series shows it. *)
Record DataFrame : Type := {
  columns : list string;
  values : list (list cell)
}.

(** [df.iterrows()]: one Series per data row, in file order, indexed by the
    column labels. *)
Definition iterrows (df : DataFrame) : list Row :=
  map (fun cells => list_to_map (zip (columns df) cells)) (values df).

(** ** A reference JSON decoder

    A decoder for the part of the JSON grammar that the examples below
    use: the literals [null], [true] and [false], integers, strings with
    the one-letter escapes, arrays and objects, with blanks between
    tokens.  It has no limit on digits or nesting and reports everything
    it does not decode as text that is not JSON.  It is one possible value
    of the parameter [json_decode] of the importer below; no theorem about
    the importer depends on it. *)
Module RefJson.

Local Open Scope char_scope.

Definition is_ws (a : ascii) : bool :=
  match a with
  | " " | "009" | "010" | "013" => true
  | _ => false
  end.

Fixpoint skip_ws (s : list ascii) : list ascii :=
  match s with
  | a :: rest => if is_ws a then skip_ws rest else s
  | [] => []
  end.

Definition digit (a : ascii) : option Z :=
  let n := Z.of_nat (nat_of_ascii a) in
  if ((48 <=? n) && (n <=? 57))%Z then Some (n - 48)%Z else None.

Fixpoint digits (s : list ascii) (acc : Z) : Z * list ascii :=
  match s with
  | a :: rest =>
      match digit a with
      | Some d => digits rest (10 * acc + d)%Z
      | None => (acc, s)
      end
  | [] => (acc, [])
  end.

(** [0] or a nonzero digit followed by digits. *)
Definition natural (s : list ascii) : option (Z * list ascii) :=
  match s with
  | "0" :: rest => Some (0%Z, rest)
  | a :: rest =>
      match digit a with
      | Some d => Some (digits rest d)
      | None => None
      end
  | [] => None
  end.

(** Fractions and exponents are outside the fragment. *)
Definition no_fraction (s : list ascii) : bool :=
  match s with
  | "." :: _ | "e" :: _ | "E" :: _ => false
  | _ => true
  end.

Definition number (s : list ascii) : option (json * list ascii) :=
  match s with
  | "-" :: rest =>
      match natural rest with
      | Some (n, rest') =>
          if no_fraction rest' then Some (JInt (- n), rest') else None
      | None => None
      end
  | _ =>
      match natural s with
      | Some (n, rest') =>
          if no_fraction rest' then Some (JInt n, rest') else None
      | None => None
      end
  end.

Definition unescape (a : ascii) : option ascii :=
  match a with
  | "034" => Some "034"
  | "\" => Some "\"
  | "/" => Some "/"
  | "b" => Some "008"
  | "f" => Some "012"
  | "n" => Some "010"
  | "r" => Some "013"
  | "t" => Some "009"
  | _ => None
  end.

(** The characters after an opening quote, up to the closing one. *)
Fixpoint chars (s : list ascii) : option (string * list ascii) :=
  match s with
  | "034" :: rest => Some (EmptyString, rest)
  | "\" :: a :: rest =>
      match unescape a, chars rest with
      | Some c, Some (str, rest') => Some (String c str, rest')
      | _, _ => None
      end
  | a :: rest =>
      if (nat_of_ascii a <? 32)%nat then None
      else
        match chars rest with
        | Some (str, rest') => Some (String a str, rest')
        | None => None
        end
  | [] => None
  end.

(** [d[k] = v] on a dict kept as its items in insertion order. *)
Fixpoint setitem (k : string) (v : json) (d : list (string * json))
    : list (string * json) :=
  match d with
  | [] => [(k, v)]
  | (k', v') :: rest =>
      if String.eqb k k' then (k, v) :: rest else (k', v') :: setitem k v rest
  end.

Fixpoint value (fuel : nat) (s : list ascii) : option (json * list ascii) :=
  match fuel with
  | O => None
  | S fuel =>
      match s with
      | "n" :: "u" :: "l" :: "l" :: rest => Some (JNull, rest)
      | "t" :: "r" :: "u" :: "e" :: rest => Some (JBool true, rest)
      | "f" :: "a" :: "l" :: "s" :: "e" :: rest => Some (JBool false, rest)
      | "034" :: rest =>
          match chars rest with
          | Some (str, rest') => Some (JStr str, rest')
          | None => None
          end
      | "[" :: rest =>
          match skip_ws rest with
          | "]" :: rest' => Some (JList [], rest')
          | rest' =>
              match elements fuel rest' with
              | Some (items, rest'') => Some (JList items, rest'')
              | None => None
              end
          end
      | "{" :: rest =>
          match skip_ws rest with
          | "}" :: rest' => Some (JDict [], rest')
          | rest' =>
              match members fuel rest' [] with
              | Some (items, rest'') => Some (JDict items, rest'')
              | None => None
              end
          end
      | _ => number s
      end
  end
with elements (fuel : nat) (s : list ascii)
    : option (list json * list ascii) :=
  match fuel with
  | O => None
  | S fuel =>
      match value fuel s with
      | Some (v, rest) =>
          match skip_ws rest with
          | "]" :: rest' => Some ([v], rest')
          | "," :: rest' =>
              match elements fuel (skip_ws rest') with
              | Some (vs, rest'') => Some (v :: vs, rest'')
              | None => None
              end
          | _ => None
          end
      | None => None
      end
  end
with members (fuel : nat) (s : list ascii) (acc : list (string * json))
    : option (list (string * json) * list ascii) :=
  match fuel with
  | O => None
  | S fuel =>
      match s with
      | "034" :: rest =>
          match chars rest with
          | Some (k, rest1) =>
              match skip_ws rest1 with
              | ":" :: rest2 =>
                  match value fuel (skip_ws rest2) with
                  | Some (v, rest3) =>
                      match skip_ws rest3 with
                      | "}" :: rest4 => Some (setitem k v acc, rest4)
                      | "," :: rest4 =>
                          members fuel (skip_ws rest4) (setitem k v acc)
                      | _ => None
                      end
                  | None => None
                  end
              | _ => None
              end
          | None => None
          end
      | _ => None
      end
  end.

(** One value, blanks allowed around it, nothing else. *)
Definition decode (text : string) : option json :=
  let s := list_ascii_of_string text in
  match value (2 * length s + 2) (skip_ws s) with
  | Some (v, rest) =>
      match skip_ws rest with
      | [] => Some v
      | _ => None
      end
  | None => None
  end.

(** [decode] as a value of [json_decode]. *)
Definition loads (text : string) : decode_error + json :=
  match decode text with
  | Some v => inr v
  | None => inl NotJSON
  end.

End RefJson.

(** ** Sample sheets and backends *)

(** [s] between double quotes. *)
Definition quoted (s : string) : string :=
  String "034" (s +:+ String "034" EmptyString).

(** The text of the JSON object that binds "a" to 1. *)
Definition json_a1 : string := "{" +:+ quoted "a" +:+ ":1}".

Definition sample_columns : list string :=
  ["recording_id"; "event_type_id"; "timestamp"; "offset_ms"; "metadata"].

(** One data row; only the metadata cell varies. *)
Definition sample_cells (metadata : cell) : list cell :=
  [CStr "rec-1"; CInt 3; CStr "2024-05-01T10:00:00Z"; CInt 1500; metadata].

Definition sample_sheet (metadata : list cell) : DataFrame :=
  {| columns := sample_columns; values := map sample_cells metadata |}.

(** A sheet whose header lacks the "metadata" column. *)
Definition plain_sheet (n : nat) : DataFrame :=
  {| columns := ["recording_id"; "event_type_id"; "timestamp"; "offset_ms"];
     values := replicate n [CStr "rec-1"; CInt 3; CNaT; CFloat nan] |}.

(** The Series [df.iterrows()] yields for such a row. *)
Definition sample_row (metadata : cell) : Row :=
  list_to_map (zip sample_columns (sample_cells metadata)).

(** The record expected for such a row. *)
Definition sample_record (metadata : json) : EventRecord :=
  <["metadata" := Json metadata]>
  (<["offset_ms" := Scalar (CInt 1500)]>
  (<["timestamp" := Scalar (CStr "2024-05-01T10:00:00Z")]>
  (<["event_type_id" := Scalar (CInt 3)]>
  (<["recording_id" := Scalar (CStr "rec-1")]> ∅)))).

(** A header without "event_type_id" and "offset_ms". *)
Definition short_sheet (n : nat) : DataFrame :=
  {| columns := ["recording_id"; "timestamp"; "metadata"];
     values := replicate n [CStr "rec-1"; CStr "2024-05-01T10:00:00Z"; CFloat nan] |}.

(** A row of such a sheet, with broken text in its metadata cell. *)
Definition short_row : Row :=
  list_to_map (zip ["recording_id"; "timestamp"; "metadata"]
                   [CStr "rec-1"; CStr "2024-05-01T10:00:00Z"; CStr "{bad json"]).

(** [sample_sheet] with its first two columns exchanged. *)
Definition swapped_sheet (metadata : list cell) : DataFrame :=
  {| columns :=
       ["event_type_id"; "recording_id"; "timestamp"; "offset_ms"; "metadata"];
     values :=
       map (fun m => [CInt 3; CStr "rec-1"; CStr "2024-05-01T10:00:00Z";
                      CInt 1500; m]) metadata |}.

Definition fresh : backend := {| requests := []; table := [] |}.

(** A backend that stores every row. *)
Definition accept_all (b : backend) (ev : EventRecord) : option request_error :=
  None.

(** A backend whose [n]-th request (counting from 0) fails with [e]. *)
Definition fail_at (n : nat) (e : request_error)
    (b : backend) (ev : EventRecord) : option request_error :=
  if (length (requests b) =? n)%nat then Some e else None.

(** Closed goals settled by evaluation. *)
Ltac by_compute := vm_compute; reflexivity.
Ltac by_decide := refine (bool_decide_unpack _ _); vm_compute; exact I.
Ltac by_lookups := repeat constructor; by eexists.

Section Importer.

(** [json.loads] on a string: the decoded value, or the way it fails. *)
Variable json_decode : string -> decode_error + json.

(** The outcome of [insert(event_data).execute()] given the state of the
    remote side: [None] when the row is stored, the error otherwise. *)
Variable execute : backend -> EventRecord -> option request_error.

(** [json.loads(cell)]: only text is accepted. *)
Definition json_loads (c : cell) : result json :=
  match c with
  | CStr s =>
      match json_decode s with
      | inr v => Ok v
      | inl d => Raise (decode_exn d)
      end
  | _ => Raise TypeError
  end.

(** The value of the "metadata" entry:
    [json.loads(row["metadata"]) if "metadata" in row and
     pd.notna(row["metadata"]) else {}]. *)
Definition metadata_of (row : Row) : result json :=
  (if contains row "metadata" then
     c <- getitem row "metadata" ;;
     if notna c then
       c' <- getitem row "metadata" ;;
       json_loads c'
     else Ok empty_dict
   else Ok empty_dict)%py.

(** The dict display of lines 27-33; the entries are evaluated top to
    bottom. *)
Definition event_data (row : Row) : result EventRecord :=
  (recording_id <- getitem row "recording_id" ;;
   event_type_id <- getitem row "event_type_id" ;;
   timestamp <- getitem row "timestamp" ;;
   offset_ms <- getitem row "offset_ms" ;;
   metadata <- metadata_of row ;;
   Ok (<["metadata" := Json metadata]>
       (<["offset_ms" := Scalar offset_ms]>
       (<["timestamp" := Scalar timestamp]>
       (<["event_type_id" := Scalar event_type_id]>
       (<["recording_id" := Scalar recording_id]> ∅))))))%py.

(** [supabase.table("events").insert(event_data).execute()]. *)
Definition insert (ev : EventRecord) (b : backend) : result unit * backend :=
  match execute b ev with
  | None =>
      (Ok tt, {| requests := requests b ++ [ev]; table := table b ++ [ev] |})
  | Some e =>
      (Raise (RequestError e),
       {| requests := requests b ++ [ev]; table := table b |})
  end.

(** The body of the [for] loop for one row. *)
Definition process_row (row : Row) (b : backend) : result unit * backend :=
  match event_data row with
  | Raise e => (Raise e, b)
  | Ok ev => insert ev b
  end.

(** [for _, row in df.iterrows(): ...]: stops at the first exception. *)
Fixpoint main_loop (rows : list Row) (b : backend) : result unit * backend :=
  match rows with
  | [] => (Ok tt, b)
  | row :: rest =>
      match process_row row b with
      | (Ok _, b') => main_loop rest b'
      | (Raise e, b') => (Raise e, b')
      end
  end.

(** The script from [pd.read_excel] on. *)
Definition main (df : DataFrame) (b : backend) : result unit * backend :=
  main_loop (iterrows df) b.

(** ** Vocabulary of the statements *)

(** The columns read with [row[...]]. *)
Definition required : list string :=
  ["recording_id"; "event_type_id"; "timestamp"; "offset_ms"].

(** The keys of the dict display. *)
Definition event_keys : gset string :=
  list_to_set (required ++ ["metadata"]).

Definition has_required (row : Row) : Prop :=
  Forall (fun k => is_Some (row !! k)) required.

Definition missing_required (df : DataFrame) : Prop :=
  Exists (fun k => k ∉ columns df) required.

(** The remote side after the requests [evs] were issued and stored. *)
Definition stored (evs : list EventRecord) (b : backend) : backend :=
  {| requests := requests b ++ evs; table := table b ++ evs |}.

(** Each record of [evs], sent after the ones before it were stored, is
    stored as well. *)
Definition accepted (b : backend) (evs : list EventRecord) : Prop :=
  forall i ev, evs !! i = Some ev -> execute (stored (take i evs) b) ev = None.

(** [rows] are transformed, one by one, into [evs]. *)
Definition transformed (rows : list Row) (evs : list EventRecord) : Prop :=
  Forall2 (fun row ev => event_data row = Ok ev) rows evs.

(** Every data row has one cell under each column of the header. *)
Definition rectangular (df : DataFrame) : Prop :=
  Forall (fun cells => length cells = length (columns df)) (values df).

(** A record is derived from [row] and holds [v] under "metadata". *)
Definition metadata_is (row : Row) (v : json) : Prop :=
  exists ev, event_data row = Ok ev /\ ev !! "metadata" = Some (Json v).

(** ** The row-to-record mapping *)

Lemma contains_Some (row : Row) k c : row !! k = Some c -> contains row k = true.
Proof. intros H. unfold contains. apply bool_decide_eq_true. eauto. Qed.

Lemma contains_None (row : Row) k : row !! k = None -> contains row k = false.
Proof.
  intros H. unfold contains. apply bool_decide_eq_false.
  rewrite H. intros [? ?]; discriminate.
Qed.

Lemma metadata_of_absent (row : Row) :
  row !! "metadata" = None -> metadata_of row = Ok empty_dict.
Proof. intros H. unfold metadata_of. by rewrite (contains_None _ _ H). Qed.

Lemma metadata_of_null (row : Row) c :
  row !! "metadata" = Some c -> notna c = false ->
  metadata_of row = Ok empty_dict.
Proof.
  intros H Hna. unfold metadata_of, getitem.
  rewrite (contains_Some _ _ _ H), H. cbn. by rewrite Hna.
Qed.

Lemma metadata_of_present (row : Row) c :
  row !! "metadata" = Some c -> notna c = true ->
  metadata_of row = json_loads c.
Proof.
  intros H Hna. unfold metadata_of, getitem.
  rewrite (contains_Some _ _ _ H), H. cbn. by rewrite Hna.
Qed.

Lemma has_required_lookups (row : Row) :
  has_required row ->
  exists c1 c2 c3 c4,
    row !! "recording_id" = Some c1 /\ row !! "event_type_id" = Some c2 /\
    row !! "timestamp" = Some c3 /\ row !! "offset_ms" = Some c4.
Proof.
  unfold has_required, required. intros H.
  repeat match goal with
         | H : Forall _ (_ :: _) |- _ => apply Forall_cons_1 in H; destruct H as [[? ?] H]
         end.
  eauto 10.
Qed.

(** With the four columns present, [event_data] is the dict display over
    the value computed for "metadata". *)
Lemma event_data_required (row : Row) c1 c2 c3 c4 :
  row !! "recording_id" = Some c1 -> row !! "event_type_id" = Some c2 ->
  row !! "timestamp" = Some c3 -> row !! "offset_ms" = Some c4 ->
  event_data row =
    (m <- metadata_of row ;;
     Ok (<["metadata" := Json m]>
         (<["offset_ms" := Scalar c4]>
         (<["timestamp" := Scalar c3]>
         (<["event_type_id" := Scalar c2]>
         (<["recording_id" := Scalar c1]> ∅))))))%py.
Proof.
  intros H1 H2 H3 H4. unfold event_data, getitem.
  by rewrite H1, H2, H3, H4.
Qed.

(** A record is only derived from a row holding the four columns. *)
Lemma event_data_Ok_inv (row : Row) (ev : EventRecord) :
  event_data row = Ok ev ->
  exists c1 c2 c3 c4 m,
    row !! "recording_id" = Some c1 /\ row !! "event_type_id" = Some c2 /\
    row !! "timestamp" = Some c3 /\ row !! "offset_ms" = Some c4 /\
    metadata_of row = Ok m /\
    ev = <["metadata" := Json m]>
         (<["offset_ms" := Scalar c4]>
         (<["timestamp" := Scalar c3]>
         (<["event_type_id" := Scalar c2]>
         (<["recording_id" := Scalar c1]> ∅)))).
Proof.
  unfold event_data, getitem.
  destruct (row !! "recording_id") as [c1|]; [|discriminate].
  destruct (row !! "event_type_id") as [c2|]; [|discriminate].
  destruct (row !! "timestamp") as [c3|]; [|discriminate].
  destruct (row !! "offset_ms") as [c4|]; [|discriminate].
  cbn. destruct (metadata_of row) as [m|e]; cbn; [|discriminate].
  intros [= <-]. by exists c1, c2, c3, c4, m.
Qed.

Lemma event_data_Ok_required (row : Row) (ev : EventRecord) :
  event_data row = Ok ev -> has_required row.
Proof.
  intros (c1 & c2 & c3 & c4 & m & H1 & H2 & H3 & H4 & _)%event_data_Ok_inv.
  unfold has_required, required. repeat constructor; eauto.
Qed.

(** The first absent column, in the order of the dict display, is the
    key of the error. *)
Lemma event_data_KeyError (row : Row) :
  ~ has_required row ->
  exists k, k ∈ required /\ row !! k = None /\ event_data row = Raise (KeyError k).
Proof.
  intros Hn. unfold event_data, getitem, required.
  destruct (row !! "recording_id") as [c1|] eqn:H1;
    [|exists "recording_id"; split; [set_solver|done]].
  destruct (row !! "event_type_id") as [c2|] eqn:H2;
    [|exists "event_type_id"; split; [set_solver|done]].
  destruct (row !! "timestamp") as [c3|] eqn:H3;
    [|exists "timestamp"; split; [set_solver|done]].
  destruct (row !! "offset_ms") as [c4|] eqn:H4;
    [|exists "offset_ms"; split; [set_solver|done]].
  destruct Hn. unfold has_required, required. repeat constructor; eauto.
Qed.

(** [event_data] reads the row through the five keys only. *)
Lemma event_data_agree (row row' : Row) :
  (forall k, k ∈ event_keys -> row' !! k = row !! k) ->
  event_data row' = event_data row.
Proof.
  intros Hagree.
  assert (H1 : row' !! "recording_id" = row !! "recording_id")
    by (apply Hagree; set_solver).
  assert (H2 : row' !! "event_type_id" = row !! "event_type_id")
    by (apply Hagree; set_solver).
  assert (H3 : row' !! "timestamp" = row !! "timestamp")
    by (apply Hagree; set_solver).
  assert (H4 : row' !! "offset_ms" = row !! "offset_ms")
    by (apply Hagree; set_solver).
  assert (H5 : row' !! "metadata" = row !! "metadata")
    by (apply Hagree; set_solver).
  unfold event_data, metadata_of, contains, getitem.
  by rewrite H1, H2, H3, H4, H5.
Qed.

(** An exception of [json.loads] is the exception of the transformation. *)
Lemma event_data_loads_Raise (row : Row) (c : cell) (e : exn) :
  has_required row -> row !! "metadata" = Some c -> notna c = true ->
  json_loads c = Raise e -> event_data row = Raise e.
Proof.
  intros Hreq Hcell Hna Hbad.
  destruct (has_required_lookups row Hreq) as (c1 & c2 & c3 & c4 & H1 & H2 & H3 & H4).
  rewrite (event_data_required row c1 c2 c3 c4 H1 H2 H3 H4).
  by rewrite (metadata_of_present row c Hcell Hna), Hbad.
Qed.

Lemma json_dict_of_is_dict (v : json) :
  is_dict v = false -> v <> empty_dict.
Proof. intros H ->. discriminate. Qed.

(** C1: for a row holding the four required columns, a record is
    derived with the empty dict under "metadata" when the row has no
    "metadata" column and when the cell under it is null (None, NaT or the
    float NaN); when the cell is text, the record holds the value
    [json.loads] decodes it to, and a text that [json.loads] rejects makes
    the transformation raise its exception; any other cell (a number that
    is not NaN, a boolean, a timestamp) makes it raise TypeError.  Rows
    lacking a required column derive no record
    ([event_data_Ok_required]). *)
Theorem metadata_field (row : Row) (Hreq : has_required row) :
  match row !! "metadata" with
  | None | Some CNone | Some CNaT => metadata_is row empty_dict
  | Some (CFloat f) =>
      if PrimFloat.is_nan f then metadata_is row empty_dict
      else event_data row = Raise TypeError
  | Some (CStr s) =>
      match json_decode s with
      | inr v => metadata_is row v
      | inl d => event_data row = Raise (decode_exn d)
      end
  | Some (CInt _) | Some (CBool _) | Some (CTimestamp _) =>
      event_data row = Raise TypeError
  end.
Proof.
  destruct (has_required_lookups row Hreq) as (c1 & c2 & c3 & c4 & H1 & H2 & H3 & H4).
  unfold metadata_is.
  rewrite (event_data_required row c1 c2 c3 c4 H1 H2 H3 H4).
  assert (Hempty : exists ev : EventRecord,
            Ok (<["metadata" := Json empty_dict]>
                (<["offset_ms" := Scalar c4]>
                (<["timestamp" := Scalar c3]>
                (<["event_type_id" := Scalar c2]>
                (<["recording_id" := Scalar c1]> ∅))))) = Ok ev /\
            ev !! "metadata" = Some (Json empty_dict))
    by (eexists; split; [done|apply lookup_insert_eq]).
  destruct (row !! "metadata") as [c|] eqn:Hc;
    [|by rewrite (metadata_of_absent row Hc)].
  destruct c as [| |f|n|b|s|ns].
  - by rewrite (metadata_of_null row _ Hc eq_refl).
  - by rewrite (metadata_of_null row _ Hc eq_refl).
  - destruct (PrimFloat.is_nan f) eqn:Hnan.
    + rewrite (metadata_of_null row (CFloat f) Hc); [done|].
      cbn. by rewrite Hnan.
    + rewrite (metadata_of_present row (CFloat f) Hc); [done|].
      cbn. by rewrite Hnan.
  - by rewrite (metadata_of_present row _ Hc eq_refl).
  - by rewrite (metadata_of_present row _ Hc eq_refl).
  - rewrite (metadata_of_present row _ Hc eq_refl). cbn.
    destruct (json_decode s) as [d|v]; cbn; [done|].
    eexists; split; [done|]. apply lookup_insert_eq.
  - by rewrite (metadata_of_present row _ Hc eq_refl).
Qed.

(** C3: whatever the cells under "recording_id", "event_type_id",
    "timestamp" and "offset_ms" hold, the record is derived as soon as the
    four columns are there and the metadata value is computed, and its
    entry under each of the four keys is the cell of the row, unchanged. *)
Theorem scalar_fields_verbatim (row : Row) (m : json)
    (Hreq : has_required row) (Hm : metadata_of row = Ok m) :
  exists ev,
    event_data row = Ok ev /\
    forall k, k ∈ required -> ev !! k = Scalar <$> row !! k.
Proof.
  destruct (has_required_lookups row Hreq) as (c1 & c2 & c3 & c4 & H1 & H2 & H3 & H4).
  rewrite (event_data_required row c1 c2 c3 c4 H1 H2 H3 H4), Hm. cbn.
  eexists; split; [done|].
  intros k Hk. unfold required in Hk.
  repeat (apply elem_of_cons in Hk as [->|Hk]);
    [rewrite H1|rewrite H2|rewrite H3|rewrite H4|by apply elem_of_nil in Hk];
    by simplify_map_eq.
Qed.

(** C8: a derived record has the five keys "recording_id",
    "event_type_id", "timestamp", "offset_ms" and "metadata" and no other,
    and a row that differs only in other columns derives the same
    record. *)
Theorem exactly_five_keys (row row' : Row) (ev : EventRecord)
    (Hev : event_data row = Ok ev)
    (Hagree : forall k, k ∈ event_keys -> row' !! k = row !! k) :
  dom ev = event_keys /\ event_data row' = Ok ev.
Proof.
  split; [|by rewrite (event_data_agree row row' Hagree)].
  apply event_data_Ok_inv in Hev
    as (c1 & c2 & c3 & c4 & m & _ & _ & _ & _ & _ & ->).
  rewrite !dom_insert_L, dom_empty_L.
  unfold event_keys, required. cbn. set_solver.
Qed.

(** C9: when the metadata cell is a string that [json.loads] decodes to a
    value that is not a dict, the "metadata" entry of the record is that
    value, and so is not the empty dict. *)
Theorem non_object_metadata (row : Row) (s : string) (v : json)
    (Hreq : has_required row)
    (Hcell : row !! "metadata" = Some (CStr s))
    (Hdec : json_decode s = inr v)
    (Hv : is_dict v = false) :
  exists ev,
    event_data row = Ok ev /\
    ev !! "metadata" = Some (Json v) /\
    ev !! "metadata" <> Some (Json empty_dict).
Proof.
  destruct (has_required_lookups row Hreq) as (c1 & c2 & c3 & c4 & H1 & H2 & H3 & H4).
  rewrite (event_data_required row c1 c2 c3 c4 H1 H2 H3 H4).
  rewrite (metadata_of_present row (CStr s) Hcell eq_refl).
  cbn. rewrite Hdec. cbn.
  eexists; split; [done|]. rewrite lookup_insert_eq. split; [done|].
  intros [= Heq]. by apply (json_dict_of_is_dict v Hv).
Qed.

(** ** The row loop *)

Lemma stored_nil (b : backend) : stored [] b = b.
Proof. destruct b. unfold stored. cbn. by rewrite !app_nil_r. Qed.

Lemma stored_app (evs1 evs2 : list EventRecord) (b : backend) :
  stored evs2 (stored evs1 b) = stored (evs1 ++ evs2) b.
Proof. unfold stored. cbn. by rewrite !app_assoc. Qed.

Lemma accepted_head (b : backend) ev evs :
  accepted b (ev :: evs) -> execute b ev = None.
Proof. intros H. specialize (H 0%nat ev eq_refl). by rewrite stored_nil in H. Qed.

Lemma accepted_tail (b : backend) ev evs :
  accepted b (ev :: evs) -> accepted (stored [ev] b) evs.
Proof.
  intros H i ev' Hi. rewrite stored_app. apply (H (S i) ev' Hi).
Qed.

(** A row whose transformation raises leaves the remote side alone. *)
Lemma process_row_Raise (row : Row) (e : exn) (b : backend) :
  event_data row = Raise e -> process_row row b = (Raise e, b).
Proof. intros H. unfold process_row. by rewrite H. Qed.

Lemma process_row_stored (row : Row) (ev : EventRecord) (b : backend) :
  event_data row = Ok ev -> execute b ev = None ->
  process_row row b = (Ok tt, stored [ev] b).
Proof. intros H He. unfold process_row, insert. by rewrite H, He. Qed.

Lemma process_row_failed (row : Row) (ev : EventRecord) err (b : backend) :
  event_data row = Ok ev -> execute b ev = Some err ->
  process_row row b =
    (Raise (RequestError err),
     {| requests := requests b ++ [ev]; table := table b |}).
Proof. intros H He. unfold process_row, insert. by rewrite H, He. Qed.

(** The loop over [rows1 ++ rows2] runs [rows2] only after [rows1] ended
    without an exception. *)
Lemma main_loop_app (rows1 rows2 : list Row) (b : backend) :
  main_loop (rows1 ++ rows2) b =
    match main_loop rows1 b with
    | (Ok _, b') => main_loop rows2 b'
    | (Raise e, b') => (Raise e, b')
    end.
Proof.
  revert b. induction rows1 as [|row rows1 IH]; intros b; cbn; [done|].
  destruct (process_row row b) as [[[]|e] b']; [apply IH|done].
Qed.

Lemma main_loop_transformed (rows : list Row) (evs : list EventRecord)
    (b : backend) :
  transformed rows evs -> accepted b evs ->
  main_loop rows b = (Ok tt, stored evs b).
Proof.
  intros Hrows. revert b.
  induction Hrows as [|row ev rows evs Hrow _ IH]; intros b Hacc; cbn.
  - by rewrite stored_nil.
  - rewrite (process_row_stored row ev b Hrow (accepted_head b ev evs Hacc)).
    rewrite (IH _ (accepted_tail b ev evs Hacc)). by rewrite stored_app.
Qed.

(** Once a row raises while it is transformed, the run is over: the
    remote side stays as the rows before it left it. *)
Lemma main_loop_stops (pre post : list Row) (row : Row) (e : exn)
    (b : backend) :
  event_data row = Raise e ->
  (exists e', fst (main_loop (pre ++ row :: post) b) = Raise e') /\
  snd (main_loop (pre ++ row :: post) b) = snd (main_loop pre b).
Proof.
  intros Hrow. rewrite main_loop_app.
  destruct (main_loop pre b) as [[[]|e'] b']; cbn.
  - rewrite (process_row_Raise row e b' Hrow). cbn. eauto.
  - eauto.
Qed.

(** Columns missing from the header are missing from every row. *)
Lemma iterrows_lookup_None (df : DataFrame) (row : Row) (k : string) :
  row ∈ iterrows df -> k ∉ columns df -> row !! k = None.
Proof.
  unfold iterrows. intros (cells & -> & _)%list_elem_of_fmap Hk.
  apply not_elem_of_list_to_map_1.
  intros ((k' & c) & Hfst & Hin)%list_elem_of_fmap. cbn in Hfst. subst k'.
  apply Hk. by apply elem_of_zip_l in Hin.
Qed.

Lemma missing_required_row (df : DataFrame) (row : Row) :
  missing_required df -> row ∈ iterrows df -> ~ has_required row.
Proof.
  unfold missing_required, has_required.
  intros (k & Hk & Hcol)%Exists_exists Hrow Hreq.
  rewrite Forall_forall in Hreq. destruct (Hreq k Hk) as [c Hc].
  rewrite (iterrows_lookup_None df row k Hrow Hcol) in Hc. discriminate.
Qed.

(** C2: in a sheet that holds a row with the four required columns and a
    metadata cell that is not null and that [json.loads] rejects (text
    that it does not decode, or a cell that is not text), the run ends in
    an exception, the remote side is left as the rows before that row left
    it, and the rows after it play no part; when the rows before it were
    all transformed and stored, the exception is the one [json.loads]
    raised on that row: the exception of the decoder for text, TypeError
    for a cell that is not text. *)
Theorem malformed_metadata_aborts (df : DataFrame) (pre post : list Row)
    (row : Row) (c : cell) (e : exn) (b : backend)
    (Hsplit : iterrows df = pre ++ row :: post)
    (Hreq : has_required row)
    (Hcell : row !! "metadata" = Some c)
    (Hna : notna c = true)
    (Hbad : json_loads c = Raise e) :
  match c with
  | CStr s => exists d, json_decode s = inl d /\ e = decode_exn d
  | _ => e = TypeError
  end /\
  (exists e', fst (main df b) = Raise e') /\
  main df b = main_loop (pre ++ [row]) b /\
  snd (main df b) = snd (main_loop pre b) /\
  (forall evs, transformed pre evs -> accepted b evs ->
     main df b = (Raise e, stored evs b)).
Proof.
  assert (Hrow : event_data row = Raise e)
    by exact (event_data_loads_Raise row c e Hreq Hcell Hna Hbad).
  unfold main. rewrite Hsplit.
  destruct (main_loop_stops pre post row e b Hrow) as [Hexn Hsnd].
  repeat split; [|done| |done|].
  - unfold json_loads in Hbad.
    destruct c; try (by injection Hbad as <-).
    destruct (json_decode s) as [d|v]; [|discriminate].
    injection Hbad as <-. by exists d.
  - rewrite !main_loop_app.
    destruct (main_loop pre b) as [[[]|e'] b']; [|done].
    cbn. by rewrite (process_row_Raise row e b' Hrow).
  - intros evs Hpre Hacc. rewrite main_loop_app.
    rewrite (main_loop_transformed pre evs b Hpre Hacc). cbn.
    by rewrite (process_row_Raise row e _ Hrow).
Qed.

(** C4: when every row of the sheet is transformed and every insert is
    stored, the run ends normally after as many insert requests as the
    sheet has data rows, and the requests carry the records of the rows in
    the order of the rows. *)
Theorem one_insert_per_row (df : DataFrame) (evs : list EventRecord)
    (b : backend)
    (Hrows : transformed (iterrows df) evs)
    (Hacc : accepted b evs) :
  exists b',
    main df b = (Ok tt, b') /\
    requests b' = requests b ++ evs /\
    table b' = table b ++ evs /\
    length evs = length (values df).
Proof.
  exists (stored evs b). unfold main.
  rewrite (main_loop_transformed _ evs b Hrows Hacc).
  repeat split.
  apply Forall2_length in Hrows. unfold iterrows in Hrows.
  by rewrite length_map in Hrows.
Qed.

(** C5: when the rows before a row were transformed and stored and the
    insert of that row fails, the run ends with the error of that insert;
    the rows stored before are still in the table, the failed request is
    the last one issued, and the rows after it are neither transformed
    nor sent. *)
Theorem insert_failure_stops_run (df : DataFrame) (pre post : list Row)
    (row : Row) (evs : list EventRecord) (ev : EventRecord)
    (err : request_error) (b : backend)
    (Hsplit : iterrows df = pre ++ row :: post)
    (Hpre : transformed pre evs)
    (Hacc : accepted b evs)
    (Hrow : event_data row = Ok ev)
    (Hfail : execute (stored evs b) ev = Some err) :
  exists b',
    main df b = (Raise (RequestError err), b') /\
    main_loop (pre ++ [row]) b = (Raise (RequestError err), b') /\
    requests b' = requests b ++ evs ++ [ev] /\
    table b' = table b ++ evs.
Proof.
  eexists. unfold main. rewrite Hsplit, !main_loop_app.
  rewrite (main_loop_transformed pre evs b Hpre Hacc). cbn.
  rewrite (process_row_failed row ev err _ Hrow Hfail). cbn.
  repeat split. by rewrite app_assoc.
Qed.

(** C6, as amended: on a sheet whose header lacks a required column no
    insert request is issued, and when the sheet has at least one data row
    the run ends in a key-lookup error for a required column, raised
    while the first row is transformed. *)
Theorem missing_column_KeyError (df : DataFrame) (b : backend)
    (Hmiss : missing_required df) :
  snd (main df b) = b /\
  (values df <> [] ->
   exists k, k ∈ required /\ main df b = (Raise (KeyError k), b)).
Proof.
  unfold main.
  destruct (iterrows df) as [|row rows] eqn:Hit.
  - split; [done|]. intros Hne. unfold iterrows in Hit.
    by apply fmap_nil_inv in Hit.
  - assert (Hin : row ∈ iterrows df) by (rewrite Hit; left).
    destruct (event_data_KeyError row (missing_required_row df row Hmiss Hin))
      as (k & Hk & _ & Hrow).
    cbn. rewrite (process_row_Raise row _ b Hrow). split; [done|]. eauto.
Qed.

(** C10: when [json.loads] raises on the metadata cell of a row, the loop
    body for that row raises without touching the remote side, and over a
    whole run the insert requests issued are those issued for the rows
    before it: none carries that row. *)
Theorem parse_failure_precedes_insert (row : Row) (c : cell) (e : exn)
    (Hcell : row !! "metadata" = Some c)
    (Hna : notna c = true)
    (Hbad : json_loads c = Raise e) :
  (forall b, exists e',
     process_row row b = (Raise e', b) /\ (has_required row -> e' = e)) /\
  (forall pre post b,
     requests (snd (main_loop (pre ++ row :: post) b)) =
     requests (snd (main_loop pre b))).
Proof.
  assert (Hrow : exists e', event_data row = Raise e' /\ (has_required row -> e' = e)).
  { destruct (decide (has_required row)) as [Hreq|Hreq].
    - exists e. split; [|done].
      exact (event_data_loads_Raise row c e Hreq Hcell Hna Hbad).
    - destruct (event_data_KeyError row Hreq) as (k & _ & _ & Hk).
      exists (KeyError k). split; [done|]. intros; contradiction. }
  destruct Hrow as (e' & Hrow & He'). split.
  - intros b. exists e'. split; [|done]. by apply process_row_Raise.
  - intros pre post b.
    by destruct (main_loop_stops pre post row e' b Hrow) as [_ ->].
Qed.

(** ** Further properties of the row-to-record mapping *)

(** [json.loads] raises neither a KeyError nor a backend error. *)
Lemma json_loads_Raise (c : cell) (e : exn) :
  json_loads c = Raise e ->
  (forall k, e <> KeyError k) /\ (forall err, e <> RequestError err).
Proof.
  unfold json_loads. intros H.
  destruct c; try (injection H as <-; by split).
  destruct (json_decode s) as [d|v]; [|discriminate].
  injection H as <-. by destruct d.
Qed.

(** With the four columns present the transformation can only fail inside
    [json.loads]. *)
Lemma event_data_required_Raise (row : Row) (e : exn) :
  has_required row -> event_data row = Raise e ->
  exists c, row !! "metadata" = Some c /\ notna c = true /\
            json_loads c = Raise e.
Proof.
  intros Hreq Hrow.
  destruct (has_required_lookups row Hreq) as (c1 & c2 & c3 & c4 & H1 & H2 & H3 & H4).
  rewrite (event_data_required row c1 c2 c3 c4 H1 H2 H3 H4) in Hrow.
  destruct (row !! "metadata") as [c|] eqn:Hc;
    [|by rewrite (metadata_of_absent row Hc) in Hrow].
  destruct (notna c) eqn:Hna;
    [|by rewrite (metadata_of_null row c Hc Hna) in Hrow].
  rewrite (metadata_of_present row c Hc Hna) in Hrow.
  destruct (json_loads c) as [v|e'] eqn:Hloads; [discriminate|].
  cbn in Hrow. injection Hrow as ->.
  exists c. split; [done|]. by split.
Qed.

(** X1: the key of the KeyError is the first column of the dict display
    that the row lacks, whatever the later columns and the metadata cell
    hold. *)
Theorem KeyError_names_first_missing (row : Row)
    (before after : list string) (k : string)
    (Hsplit : required = before ++ k :: after)
    (Hbefore : Forall (fun k' => is_Some (row !! k')) before)
    (Hk : row !! k = None) :
  event_data row = Raise (KeyError k).
Proof.
  unfold required in Hsplit. unfold event_data, getitem.
  destruct before as [|k1 [|k2 [|k3 [|k4 before]]]]; simplify_eq/=.
  - by rewrite Hk.
  - apply Forall_cons_1 in Hbefore as [[c1 ->] _]. cbn. by rewrite Hk.
  - apply Forall_cons_1 in Hbefore as [[c1 ->] Hbefore].
    apply Forall_cons_1 in Hbefore as [[c2 ->] _]. cbn. by rewrite Hk.
  - apply Forall_cons_1 in Hbefore as [[c1 ->] Hbefore].
    apply Forall_cons_1 in Hbefore as [[c2 ->] Hbefore].
    apply Forall_cons_1 in Hbefore as [[c3 ->] _]. cbn. by rewrite Hk.
  - by destruct before.
Qed.

(** X2: a transformation that raises does so with a KeyError for a
    required column the row lacks, or, when the four columns are there,
    with the exception that [json.loads] raised on a metadata cell that
    is not null.  It never raises a KeyError for "metadata" and never a
    backend error. *)
Theorem event_data_errors (row : Row) (e : exn)
    (Hrow : event_data row = Raise e) :
  ((exists k, e = KeyError k /\ k ∈ required /\ row !! k = None) \/
   (has_required row /\
    exists c, row !! "metadata" = Some c /\ notna c = true /\
              json_loads c = Raise e)) /\
  e <> KeyError "metadata" /\
  (forall err, e <> RequestError err).
Proof.
  destruct (decide (has_required row)) as [Hreq|Hreq].
  - destruct (event_data_required_Raise row e Hreq Hrow)
      as (c & Hc & Hna & Hloads).
    destruct (json_loads_Raise c e Hloads) as [Hkey Herr].
    split; [right; eauto 10|]. split; [apply Hkey|apply Herr].
  - destruct (event_data_KeyError row Hreq) as (k & Hk & Hnone & Hraise).
    rewrite Hraise in Hrow. injection Hrow as <-.
    split; [left; eauto|]. split; [|discriminate].
    intros [= ->]. unfold required in Hk.
    repeat (apply elem_of_cons in Hk as [Hk|Hk]; [discriminate|]).
    by apply elem_of_nil in Hk.
Qed.

(** X3: a null metadata cell gives what a row without the "metadata"
    column gives: dropping the column from the row does not change the
    result of the transformation. *)
Theorem null_metadata_as_absent (row : Row) (c : cell)
    (Hcell : row !! "metadata" = Some c)
    (Hna : notna c = false) :
  event_data (delete "metadata" row) = event_data row.
Proof.
  unfold event_data, getitem.
  rewrite !lookup_delete_ne by done.
  rewrite (metadata_of_null row c Hcell Hna).
  by rewrite (metadata_of_absent (delete "metadata" row) (lookup_delete_eq _ _)).
Qed.

(** X4: a metadata cell that is neither null nor text (a number, a
    boolean, a timestamp) makes the transformation raise TypeError,
    whatever the JSON decoder accepts. *)
Theorem non_text_metadata_TypeError (row : Row) (c : cell)
    (Hreq : has_required row)
    (Hcell : row !! "metadata" = Some c)
    (Hna : notna c = true)
    (Htext : forall s, c <> CStr s) :
  event_data row = Raise TypeError.
Proof.
  apply (event_data_loads_Raise row c TypeError Hreq Hcell Hna).
  destruct c; try done. by destruct (Htext s).
Qed.

(** ** Further properties of the row loop *)

Lemma accepted_cons (b : backend) ev evs :
  execute b ev = None -> accepted (stored [ev] b) evs ->
  accepted b (ev :: evs).
Proof.
  intros Hev Hacc [|i] ev' Hi; cbn in *.
  - injection Hi as <-. by rewrite stored_nil.
  - specialize (Hacc i ev' Hi). by rewrite stored_app in Hacc.
Qed.

Lemma accepted_app (b : backend) (evs1 evs2 : list EventRecord) :
  accepted b (evs1 ++ evs2) ->
  accepted b evs1 /\ accepted (stored evs1 b) evs2.
Proof.
  intros Hacc. split.
  - intros i ev Hi.
    pose proof (lookup_lt_Some _ _ _ Hi) as Hlt.
    specialize (Hacc i ev (lookup_app_l_Some _ _ _ _ Hi)).
    by rewrite take_app_le in Hacc by lia.
  - intros i ev Hi. rewrite stored_app.
    specialize (Hacc (length evs1 + i)%nat ev).
    rewrite take_app_add in Hacc. apply Hacc.
    rewrite lookup_app_r by lia.
    by replace (length evs1 + i - length evs1)%nat with i by lia.
Qed.

Lemma main_loop_Ok_inv (rows : list Row) (b b' : backend) :
  main_loop rows b = (Ok tt, b') ->
  exists evs, transformed rows evs /\ accepted b evs /\ b' = stored evs b.
Proof.
  revert b. induction rows as [|row rows IH]; intros b; cbn.
  - intros [= <-]. exists []. split; [constructor|].
    split; [intros i ev [=]|by rewrite stored_nil].
  - unfold process_row, insert.
    destruct (event_data row) as [ev|e] eqn:Hrow; [|discriminate].
    destruct (execute b ev) as [err|] eqn:Hev; [discriminate|].
    intros (evs & Hrows & Hacc & ->)%IH.
    exists (ev :: evs). split; [by constructor|].
    split; [by apply accepted_cons|exact (stored_app [ev] evs b)].
Qed.

(** An exception of the loop is the exception of one of its rows or the
    error of an insert. *)
Lemma main_loop_Raise_inv (rows : list Row) (b : backend) (e : exn) :
  fst (main_loop rows b) = Raise e ->
  (exists row, row ∈ rows /\ event_data row = Raise e) \/
  (exists err, e = RequestError err).
Proof.
  revert b. induction rows as [|row rows IH]; intros b; cbn; [discriminate|].
  unfold process_row, insert.
  destruct (event_data row) as [ev|e'] eqn:Hrow.
  - destruct (execute b ev) as [err|]; cbn.
    + intros [= <-]. right. eauto.
    + intros [(row' & Hin & Hraise)|Herr]%IH; [left|by right].
      exists row'. split; [by right|done].
  - cbn. intros [= <-]. left. exists row. split; [by left|done].
Qed.

Lemma iterrows_has_required (df : DataFrame) (row : Row) :
  Forall (fun k => k ∈ columns df) required -> rectangular df ->
  row ∈ iterrows df -> has_required row.
Proof.
  unfold rectangular, iterrows, has_required.
  intros Hcols Hrect (cells & -> & Hin)%list_elem_of_fmap.
  rewrite Forall_forall in Hrect. specialize (Hrect cells Hin).
  eapply Forall_impl; [exact Hcols|]. intros k Hk. cbn in Hk.
  apply not_eq_None_Some. intros Hnone%not_elem_of_list_to_map.
  apply Hnone. rewrite fst_zip by lia. exact Hk.
Qed.

Lemma iterrows_permuted (df df' : DataFrame) :
  NoDup (columns df) -> rectangular df ->
  Forall2 (fun cells cells' =>
             zip (columns df) cells ≡ₚ zip (columns df') cells')
          (values df) (values df') ->
  iterrows df = iterrows df'.
Proof.
  unfold rectangular, iterrows. intros Hnodup Hrect Hperm.
  induction Hperm as [|cells cells' rows rows' Hrow _ IH]; cbn; [done|].
  apply Forall_cons_1 in Hrect as [Hlen Hrect]. f_equal; [|by apply IH].
  apply list_to_map_proper; [|done]. rewrite fst_zip by lia. done.
Qed.

(** X5: a run that ends normally has transformed every data row and had
    every insert stored: the requests issued and the rows added to the
    table are the records of the rows, one per data row, in row order. *)
Theorem normal_end_all_rows_stored (df : DataFrame) (b b' : backend)
    (Hrun : main df b = (Ok tt, b')) :
  exists evs,
    transformed (iterrows df) evs /\
    accepted b evs /\
    requests b' = requests b ++ evs /\
    table b' = table b ++ evs /\
    length evs = length (values df).
Proof.
  apply main_loop_Ok_inv in Hrun as (evs & Hrows & Hacc & ->).
  exists evs. split; [done|]. split; [done|]. split; [done|]. split; [done|].
  apply Forall2_length in Hrows. unfold iterrows in Hrows.
  by rewrite length_map in Hrows.
Qed.

(** X6: whatever the sheet and the backend do, a run only appends: the
    requests it issues carry the records of the first data rows, in row
    order, and the table gains those same records, except that the last
    request is missing from the table when the run ended with the error
    of that insert. *)
Theorem run_appends_records_of_first_rows (df : DataFrame) (b : backend) :
  exists evs,
    transformed (take (length evs) (iterrows df)) evs /\
    length evs <= length (values df) /\
    requests (snd (main df b)) = requests b ++ evs /\
    (table (snd (main df b)) = table b ++ evs \/
     exists evs0 ev err,
       evs = evs0 ++ [ev] /\
       table (snd (main df b)) = table b ++ evs0 /\
       fst (main df b) = Raise (RequestError err)).
Proof.
  unfold main. replace (length (values df)) with (length (iterrows df))
    by (unfold iterrows; apply length_map).
  generalize (iterrows df) as rows. intros rows. revert b.
  induction rows as [|row rows IH]; intros b; cbn.
  - exists []. cbn. rewrite !app_nil_r. repeat split; [constructor|lia|by left].
  - unfold process_row, insert.
    destruct (event_data row) as [ev|e] eqn:Hrow.
    + destruct (execute b ev) as [err|] eqn:Hev; cbn.
      * exists [ev]. cbn. split; [by repeat constructor|].
        split; [lia|]. split; [done|]. right.
        exists [], ev, err. by rewrite app_nil_r.
      * destruct (IH (Backend (requests b ++ [ev]) (table b ++ [ev])))
          as (evs & Hrows & Hlen & Hreq & Htab).
        cbn in Hreq, Htab. exists (ev :: evs). cbn.
        split; [by constructor|]. split; [lia|].
        split; [by rewrite Hreq, <- app_assoc|].
        destruct Htab as [Htab|(evs0 & ev' & err & -> & Htab & Hfst)].
        -- left. by rewrite Htab, <- app_assoc.
        -- right. exists (ev :: evs0), ev', err.
           split; [done|]. split; [|done]. by rewrite Htab, <- app_assoc.
    + exists []. cbn. rewrite !app_nil_r.
      repeat split; [constructor|lia|by left].
Qed.

(** X8: the import is not idempotent: when a sheet is imported twice and
    every insert is stored, both runs end normally and the table holds
    the records of the sheet twice. *)
Theorem rerun_duplicates_rows (df : DataFrame) (evs : list EventRecord)
    (b : backend)
    (Hrows : transformed (iterrows df) evs)
    (Hacc : accepted b (evs ++ evs)) :
  exists b1 b2,
    main df b = (Ok tt, b1) /\
    main df b1 = (Ok tt, b2) /\
    table b2 = table b ++ evs ++ evs.
Proof.
  apply accepted_app in Hacc as [Hacc1 Hacc2].
  exists (stored evs b), (stored evs (stored evs b)). unfold main.
  rewrite (main_loop_transformed _ evs b Hrows Hacc1).
  rewrite (main_loop_transformed _ evs _ Hrows Hacc2).
  split; [done|]. split; [done|]. cbn. by rewrite app_assoc.
Qed.

(** X9: when the header holds the four required columns and every data
    row has a cell under each column, no run ends in a KeyError. *)
Theorem full_header_no_KeyError (df : DataFrame) (b : backend) (k : string)
    (Hcols : Forall (fun k' => k' ∈ columns df) required)
    (Hrect : rectangular df) :
  fst (main df b) <> Raise (KeyError k).
Proof.
  unfold main.
  intros [(row & Hin & Hraise)|[err Herr]]%main_loop_Raise_inv; [|discriminate].
  pose proof (iterrows_has_required df row Hcols Hrect Hin) as Hreq.
  destruct (event_data_required_Raise row _ Hreq Hraise)
    as (c & _ & _ & Hloads).
  destruct (json_loads_Raise c _ Hloads) as [Hkey _]. by apply (Hkey k).
Qed.

(** X10: the order of the columns in the sheet does not matter: two
    sheets whose rows pair the same labels with the same cells, in any
    column order, run alike. *)
Theorem column_order_irrelevant (df df' : DataFrame) (b : backend)
    (Hnodup : NoDup (columns df))
    (Hrect : rectangular df)
    (Hperm : Forall2 (fun cells cells' =>
                        zip (columns df) cells ≡ₚ zip (columns df') cells')
                     (values df) (values df')) :
  main df b = main df' b.
Proof.
  unfold main. by rewrite (iterrows_permuted df df' Hnodup Hrect Hperm).
Qed.

End Importer.

(** ** The statements at sample sheets *)

(** The three cases of the metadata cell: the text of the object with
    "a" bound to 1, an empty cell, and a row without the column. *)
Lemma metadata_field_witness :
  let plain : Row :=
    list_to_map (zip ["recording_id"; "event_type_id"; "timestamp"; "offset_ms"]
                     [CStr "rec-1"; CInt 3; CNaT; CFloat nan]) in
  (has_required (sample_row (CStr json_a1)) /\
   metadata_is RefJson.loads (sample_row (CStr json_a1))
     (JDict [("a", JInt 1)])) /\
  (has_required (sample_row (CFloat nan)) /\
   metadata_is RefJson.loads (sample_row (CFloat nan)) empty_dict) /\
  (has_required plain /\ metadata_is RefJson.loads plain empty_dict).
Proof.
  intros plain.
  assert (Htext : has_required (sample_row (CStr json_a1)))
    by (unfold has_required, required; by_lookups).
  assert (Hnull : has_required (sample_row (CFloat nan)))
    by (unfold has_required, required; by_lookups).
  assert (Hplain : has_required plain)
    by (unfold has_required, required; by_lookups).
  split; [|split].
  - exact (conj Htext (metadata_field RefJson.loads _ Htext)).
  - exact (conj Hnull (metadata_field RefJson.loads _ Hnull)).
  - exact (conj Hplain (metadata_field RefJson.loads _ Hplain)).
Defined.

(** An empty metadata cell, and a sheet without the column. *)
Example metadata_null_cell :
  event_data RefJson.loads (sample_row (CFloat nan))
  = Ok (sample_record empty_dict).
Proof. by_compute. Qed.

Example metadata_no_column :
  main RefJson.loads accept_all (plain_sheet 1) fresh
  = (Ok tt,
     stored
       [ <["metadata" := Json empty_dict]>
         (<["offset_ms" := Scalar (CFloat nan)]>
         (<["timestamp" := Scalar CNaT]>
         (<["event_type_id" := Scalar (CInt 3)]>
         (<["recording_id" := Scalar (CStr "rec-1")]> ∅)))) ] fresh).
Proof. by_compute. Qed.

(** A second row with broken metadata between two good rows. *)
Lemma malformed_metadata_aborts_witness :
  let df := sample_sheet [CStr json_a1; CStr "{bad json"; CFloat nan] in
  iterrows df
    = [sample_row (CStr json_a1)] ++ sample_row (CStr "{bad json")
      :: [sample_row (CFloat nan)] /\
  has_required (sample_row (CStr "{bad json")) /\
  sample_row (CStr "{bad json") !! "metadata" = Some (CStr "{bad json") /\
  notna (CStr "{bad json") = true /\
  json_loads RefJson.loads (CStr "{bad json") = Raise JSONDecodeError /\
  main RefJson.loads accept_all df fresh
    = (Raise JSONDecodeError,
       stored [sample_record (JDict [("a", JInt 1)])] fresh).
Proof.
  intros df.
  assert (Hsplit : iterrows df
    = [sample_row (CStr json_a1)] ++ sample_row (CStr "{bad json")
      :: [sample_row (CFloat nan)]) by reflexivity.
  assert (Hreq : has_required (sample_row (CStr "{bad json")))
    by (unfold has_required, required; by_lookups).
  assert (Hcell : sample_row (CStr "{bad json") !! "metadata"
                  = Some (CStr "{bad json")) by by_compute.
  assert (Hna : notna (CStr "{bad json") = true) by reflexivity.
  assert (Hbad : json_loads RefJson.loads (CStr "{bad json")
                 = Raise JSONDecodeError) by by_compute.
  refine (conj Hsplit (conj Hreq (conj Hcell (conj Hna (conj Hbad _))))).
  destruct (malformed_metadata_aborts RefJson.loads accept_all df _ _ _ _ _
              fresh Hsplit Hreq Hcell Hna Hbad) as (_ & _ & _ & _ & Hrun).
  apply (Hrun [sample_record (JDict [("a", JInt 1)])]).
  - repeat constructor.
  - intros i ev _. reflexivity.
Defined.

(** NaT and NaN under "timestamp" and "offset_ms" go through as they
    are. *)
Lemma scalar_fields_verbatim_witness :
  let row : Row :=
    list_to_map (zip ["recording_id"; "event_type_id"; "timestamp"; "offset_ms"]
                     [CStr "rec-1"; CInt 3; CNaT; CFloat nan]) in
  has_required row /\
  metadata_of RefJson.loads row = Ok empty_dict /\
  exists ev,
    event_data RefJson.loads row = Ok ev /\
    forall k, k ∈ required -> ev !! k = Scalar <$> row !! k.
Proof.
  intros row.
  assert (Hreq : has_required row) by (unfold has_required, required; by_lookups).
  assert (Hm : metadata_of RefJson.loads row = Ok empty_dict) by by_compute.
  refine (conj Hreq (conj Hm _)).
  exact (scalar_fields_verbatim RefJson.loads row empty_dict Hreq Hm).
Defined.

(** Three rows, three requests, in the order of the rows. *)
Lemma one_insert_per_row_witness :
  let df := sample_sheet [CStr json_a1; CFloat nan; CStr "[1, 2]"] in
  let evs := [sample_record (JDict [("a", JInt 1)]);
              sample_record empty_dict;
              sample_record (JList [JInt 1; JInt 2])] in
  transformed RefJson.loads (iterrows df) evs /\
  accepted accept_all fresh evs /\
  exists b',
    main RefJson.loads accept_all df fresh = (Ok tt, b') /\
    requests b' = requests fresh ++ evs /\
    table b' = table fresh ++ evs /\
    length evs = length (values df).
Proof.
  intros df evs.
  assert (Hrows : transformed RefJson.loads (iterrows df) evs)
    by (repeat constructor; by_compute).
  assert (Hacc : accepted accept_all fresh evs)
    by (intros i ev _; reflexivity).
  refine (conj Hrows (conj Hacc _)).
  exact (one_insert_per_row RefJson.loads accept_all df evs fresh Hrows Hacc).
Defined.

(** The second of three inserts meets a network error. *)
Lemma insert_failure_stops_run_witness :
  let df := sample_sheet [CStr json_a1; CFloat nan; CStr "[1, 2]"] in
  let ev0 := sample_record (JDict [("a", JInt 1)]) in
  let ev1 := sample_record empty_dict in
  iterrows df
    = [sample_row (CStr json_a1)] ++ sample_row (CFloat nan)
      :: [sample_row (CStr "[1, 2]")] /\
  transformed RefJson.loads [sample_row (CStr json_a1)] [ev0] /\
  accepted (fail_at 1 NetworkError) fresh [ev0] /\
  event_data RefJson.loads (sample_row (CFloat nan)) = Ok ev1 /\
  fail_at 1 NetworkError (stored [ev0] fresh) ev1 = Some NetworkError /\
  main RefJson.loads (fail_at 1 NetworkError) df fresh
    = (Raise (RequestError NetworkError),
       {| requests := [ev0; ev1]; table := [ev0] |}).
Proof.
  intros df ev0 ev1.
  assert (Hsplit : iterrows df
    = [sample_row (CStr json_a1)] ++ sample_row (CFloat nan)
      :: [sample_row (CStr "[1, 2]")]) by reflexivity.
  assert (Hpre : transformed RefJson.loads [sample_row (CStr json_a1)] [ev0])
    by (repeat constructor; by_compute).
  assert (Hacc : accepted (fail_at 1 NetworkError) fresh [ev0])
    by (intros [|i] ev; [reflexivity|intros [=]]).
  assert (Hrow : event_data RefJson.loads (sample_row (CFloat nan)) = Ok ev1)
    by by_compute.
  assert (Hfail : fail_at 1 NetworkError (stored [ev0] fresh) ev1
                  = Some NetworkError) by reflexivity.
  refine (conj Hsplit (conj Hpre (conj Hacc (conj Hrow (conj Hfail _))))).
  destruct (insert_failure_stops_run RefJson.loads (fail_at 1 NetworkError)
              df _ _ _ _ _ _ fresh Hsplit Hpre Hacc Hrow Hfail)
    as ([rq tb] & -> & _ & Hrq & Htb).
  cbn in Hrq, Htb. by rewrite Hrq, Htb.
Defined.

(** C6, as stated, fails on a sheet that has a header and no data row:
    the header lacks two required columns, and the run ends normally. *)
Lemma missing_column_empty_sheet :
  missing_required (short_sheet 0) /\
  main RefJson.loads accept_all (short_sheet 0) fresh = (Ok tt, fresh) /\
  ~ exists k b',
      main RefJson.loads accept_all (short_sheet 0) fresh
      = (Raise (KeyError k), b').
Proof.
  split; [|split].
  - unfold missing_required. by_decide.
  - reflexivity.
  - intros (k & b' & H). discriminate H.
Qed.

(** The same header over one data row. *)
Lemma missing_column_KeyError_witness :
  missing_required (short_sheet 1) /\
  snd (main RefJson.loads accept_all (short_sheet 1) fresh) = fresh /\
  (values (short_sheet 1) <> [] ->
   exists k, k ∈ required /\
     main RefJson.loads accept_all (short_sheet 1) fresh
     = (Raise (KeyError k), fresh)).
Proof.
  assert (Hmiss : missing_required (short_sheet 1))
    by (unfold missing_required; by_decide).
  split; [exact Hmiss|].
  exact (missing_column_KeyError RefJson.loads accept_all (short_sheet 1)
           fresh Hmiss).
Defined.

Example missing_column_first_key :
  main RefJson.loads accept_all (short_sheet 2) fresh
  = (Raise (KeyError "event_type_id"), fresh).
Proof. by_compute. Qed.

(** A "notes" column next to the five. *)
Lemma exactly_five_keys_witness :
  let row := sample_row CNone in
  let row' : Row := <["notes" := CStr "checked by hand"]> row in
  event_data RefJson.loads row = Ok (sample_record empty_dict) /\
  (forall k, k ∈ event_keys -> row' !! k = row !! k) /\
  dom (sample_record empty_dict) = event_keys /\
  event_data RefJson.loads row' = Ok (sample_record empty_dict).
Proof.
  intros row row'.
  assert (Hev : event_data RefJson.loads row = Ok (sample_record empty_dict))
    by by_compute.
  assert (Hagree : forall k, k ∈ event_keys -> row' !! k = row !! k).
  { assert (Hnotes : "notes" ∉ event_keys) by by_decide.
    intros k Hk. apply lookup_insert_ne. by intros <-. }
  split; [exact Hev|]. split; [exact Hagree|].
  exact (exactly_five_keys RefJson.loads row row' _ Hev Hagree).
Defined.

(** The text "null" decodes to None. *)
Lemma non_object_metadata_witness :
  has_required (sample_row (CStr "null")) /\
  sample_row (CStr "null") !! "metadata" = Some (CStr "null") /\
  RefJson.loads "null" = inr JNull /\
  is_dict JNull = false /\
  exists ev,
    event_data RefJson.loads (sample_row (CStr "null")) = Ok ev /\
    ev !! "metadata" = Some (Json JNull) /\
    ev !! "metadata" <> Some (Json empty_dict).
Proof.
  assert (Hreq : has_required (sample_row (CStr "null"))) by (unfold has_required, required; by_lookups).
  assert (Hcell : sample_row (CStr "null") !! "metadata" = Some (CStr "null"))
    by by_compute.
  assert (Hdec : RefJson.loads "null" = inr JNull) by by_compute.
  refine (conj Hreq (conj Hcell (conj Hdec (conj eq_refl _)))).
  exact (non_object_metadata RefJson.loads _ "null" JNull Hreq Hcell Hdec eq_refl).
Defined.

Example metadata_number :
  event_data RefJson.loads (sample_row (CStr "42"))
  = Ok (sample_record (JInt 42)).
Proof. by_compute. Qed.

Example metadata_array :
  event_data RefJson.loads (sample_row (CStr "[1, 2]"))
  = Ok (sample_record (JList [JInt 1; JInt 2])).
Proof. by_compute. Qed.

(** A number cell under "metadata" is not text: [json.loads] raises
    TypeError. *)
Example metadata_number_cell :
  event_data RefJson.loads (sample_row (CInt 42)) = Raise TypeError.
Proof. by_compute. Qed.

(** Broken metadata in the second of two rows: one request, for the
    first row. *)
Lemma parse_failure_precedes_insert_witness :
  let row := sample_row (CStr "{bad json") in
  row !! "metadata" = Some (CStr "{bad json") /\
  notna (CStr "{bad json") = true /\
  json_loads RefJson.loads (CStr "{bad json") = Raise JSONDecodeError /\
  requests (snd (main_loop RefJson.loads accept_all
                   ([sample_row CNone] ++ row :: [sample_row CNone]) fresh))
  = requests (snd (main_loop RefJson.loads accept_all [sample_row CNone] fresh)).
Proof.
  intros row.
  assert (Hcell : row !! "metadata" = Some (CStr "{bad json")) by by_compute.
  assert (Hbad : json_loads RefJson.loads (CStr "{bad json")
                 = Raise JSONDecodeError) by by_compute.
  split; [exact Hcell|]. split; [reflexivity|]. split; [exact Hbad|].
  apply (parse_failure_precedes_insert RefJson.loads accept_all row
           (CStr "{bad json") JSONDecodeError Hcell eq_refl Hbad).
Defined.

(** ** The further properties at sample sheets *)

(** "event_type_id" is the first column the row lacks; "offset_ms" is
    missing too and the metadata text is broken. *)
Lemma KeyError_names_first_missing_witness :
  required = ["recording_id"] ++ "event_type_id" :: ["timestamp"; "offset_ms"] /\
  Forall (fun k' => is_Some (short_row !! k')) ["recording_id"] /\
  short_row !! "event_type_id" = None /\
  event_data RefJson.loads short_row = Raise (KeyError "event_type_id").
Proof.
  assert (Hbefore : Forall (fun k' => is_Some (short_row !! k')) ["recording_id"])
    by by_lookups.
  assert (Hk : short_row !! "event_type_id" = None) by by_compute.
  refine (conj eq_refl (conj Hbefore (conj Hk _))).
  exact (KeyError_names_first_missing RefJson.loads short_row
           ["recording_id"] ["timestamp"; "offset_ms"] "event_type_id"
           eq_refl Hbefore Hk).
Defined.

Lemma event_data_errors_witness :
  event_data RefJson.loads (sample_row (CStr "{bad json"))
    = Raise JSONDecodeError /\
  has_required (sample_row (CStr "{bad json")) /\
  JSONDecodeError <> KeyError "metadata".
Proof.
  assert (Hrow : event_data RefJson.loads (sample_row (CStr "{bad json"))
                 = Raise JSONDecodeError) by by_compute.
  split; [exact Hrow|].
  destruct (event_data_errors RefJson.loads _ _ Hrow)
    as ([(k & [=] & _)|[Hreq _]] & Hne & _).
  exact (conj Hreq Hne).
Defined.

Lemma null_metadata_as_absent_witness :
  sample_row (CFloat nan) !! "metadata" = Some (CFloat nan) /\
  notna (CFloat nan) = false /\
  event_data RefJson.loads (delete "metadata" (sample_row (CFloat nan)))
  = event_data RefJson.loads (sample_row (CFloat nan)).
Proof.
  assert (Hcell : sample_row (CFloat nan) !! "metadata" = Some (CFloat nan))
    by by_compute.
  refine (conj Hcell (conj eq_refl _)).
  exact (null_metadata_as_absent RefJson.loads _ (CFloat nan) Hcell eq_refl).
Defined.

(** A number typed into the metadata cell. *)
Lemma non_text_metadata_TypeError_witness :
  has_required (sample_row (CInt 42)) /\
  sample_row (CInt 42) !! "metadata" = Some (CInt 42) /\
  notna (CInt 42) = true /\
  (forall s, CInt 42 <> CStr s) /\
  event_data RefJson.loads (sample_row (CInt 42)) = Raise TypeError.
Proof.
  assert (Hreq : has_required (sample_row (CInt 42)))
    by (unfold has_required, required; by_lookups).
  assert (Hcell : sample_row (CInt 42) !! "metadata" = Some (CInt 42))
    by by_compute.
  assert (Htext : forall s, CInt 42 <> CStr s) by (intros s; discriminate).
  refine (conj Hreq (conj Hcell (conj eq_refl (conj Htext _)))).
  exact (non_text_metadata_TypeError RefJson.loads _ (CInt 42)
           Hreq Hcell eq_refl Htext).
Defined.

Lemma normal_end_all_rows_stored_witness :
  let df := sample_sheet [CStr json_a1; CFloat nan] in
  let b' := stored [sample_record (JDict [("a", JInt 1)]);
                    sample_record empty_dict] fresh in
  main RefJson.loads accept_all df fresh = (Ok tt, b') /\
  exists evs,
    transformed RefJson.loads (iterrows df) evs /\
    accepted accept_all fresh evs /\
    requests b' = requests fresh ++ evs /\
    table b' = table fresh ++ evs /\
    length evs = length (values df).
Proof.
  intros df b'.
  assert (Hrun : main RefJson.loads accept_all df fresh = (Ok tt, b'))
    by by_compute.
  split; [exact Hrun|].
  exact (normal_end_all_rows_stored RefJson.loads accept_all df fresh b' Hrun).
Defined.

Lemma rerun_duplicates_rows_witness :
  let df := sample_sheet [CFloat nan] in
  let evs := [sample_record empty_dict] in
  transformed RefJson.loads (iterrows df) evs /\
  accepted accept_all fresh (evs ++ evs) /\
  exists b1 b2,
    main RefJson.loads accept_all df fresh = (Ok tt, b1) /\
    main RefJson.loads accept_all df b1 = (Ok tt, b2) /\
    table b2 = table fresh ++ evs ++ evs.
Proof.
  intros df evs.
  assert (Hrows : transformed RefJson.loads (iterrows df) evs)
    by (repeat constructor; by_compute).
  assert (Hacc : accepted accept_all fresh (evs ++ evs))
    by (intros i ev _; reflexivity).
  refine (conj Hrows (conj Hacc _)).
  exact (rerun_duplicates_rows RefJson.loads accept_all df evs fresh Hrows Hacc).
Defined.

(** Broken metadata under a full header: the run raises, and not a
    KeyError. *)
Lemma full_header_no_KeyError_witness :
  let df := sample_sheet [CStr "{bad json"] in
  Forall (fun k' => k' ∈ columns df) required /\
  rectangular df /\
  fst (main RefJson.loads accept_all df fresh) <> Raise (KeyError "recording_id").
Proof.
  intros df.
  assert (Hcols : Forall (fun k' => k' ∈ columns df) required) by by_decide.
  assert (Hrect : rectangular df) by (repeat constructor).
  refine (conj Hcols (conj Hrect _)).
  exact (full_header_no_KeyError RefJson.loads accept_all df fresh
           "recording_id" Hcols Hrect).
Defined.

Lemma column_order_irrelevant_witness :
  let df := sample_sheet [CStr json_a1] in
  let df' := swapped_sheet [CStr json_a1] in
  NoDup (columns df) /\
  rectangular df /\
  Forall2 (fun cells cells' =>
             zip (columns df) cells ≡ₚ zip (columns df') cells')
          (values df) (values df') /\
  main RefJson.loads accept_all df fresh
  = main RefJson.loads accept_all df' fresh.
Proof.
  intros df df'.
  assert (Hnodup : NoDup (columns df)) by by_decide.
  assert (Hrect : rectangular df) by (repeat constructor).
  assert (Hperm : Forall2 (fun cells cells' =>
                             zip (columns df) cells ≡ₚ zip (columns df') cells')
                          (values df) (values df'))
    by (repeat constructor; apply perm_swap).
  refine (conj Hnodup (conj Hrect (conj Hperm _))).
  exact (column_order_irrelevant RefJson.loads accept_all df df' fresh
           Hnodup Hrect Hperm).
Defined.
